(** * ui-bolt: the Tailwind configuration descriptor

    The repository consists of one ES module, [tailwind.config.js], whose
    body is a single [export default] of an object literal.  This file
    embeds that literal as a tree of JavaScript values and proves the
    structural properties that the specification states about it. *)

From Stdlib Require Import Ascii.
From stdpp Require Import gmap strings list fin_maps relations.

Set Warnings "-register-all".
Local Open Scope string_scope.

(** ** JavaScript values

    Only the three kinds of values that the module uses: strings, arrays
    and plain objects.  An object is a finite map from property names to
    values. *)

Inductive value :=
| VString (s : string)
| VArray (xs : list value)
| VObject (props : gmap string value).

(** Evaluation of an object literal [{ k1: v1, ..., kn: vn }]: the
    properties are defined from left to right, so a name written twice
    keeps the value written last. *)
Definition object (props : list (string * value)) : value :=
  VObject (foldl (λ m kv, <[kv.1 := kv.2]> m) ∅ props).

(** Property access [v.k] on own properties; [None] stands for
    [undefined]. *)
Definition get (k : string) (v : value) : option value :=
  match v with
  | VObject m => m !! k
  | _ => None
  end.

(** Chained access [v.k1.k2...kn]. *)
Fixpoint get_path (p : list string) (v : value) : option value :=
  match p with
  | [] => Some v
  | k :: p' => get k v ≫= get_path p'
  end.

(** Every property name that occurs in an object anywhere inside [v]. *)
Fixpoint all_keys (v : value) : gset string :=
  match v with
  | VString _ => ∅
  | VArray xs => ⋃ (all_keys <$> xs)
  | VObject m => dom m ∪ map_fold (λ _ v' acc, all_keys v' ∪ acc) ∅ m
  end.

(** ** The module [tailwind.config.js]

    Each definition below is one literal of the source, with the
    properties in the order in which they are written. *)

Definition content_literal : list value :=
  [ VString "./index.html"; VString "./src/**/*.{js,ts,jsx,tsx}" ].

Definition colors_literal : list (string * value) :=
  [ ("primary", VString "#FF5D2B");
    ("secondary", VString "#FF5D2B");
    ("background", VString "#171717") ].

Definition boxShadow_literal : list (string * value) :=
  [ ("glow", VString "0 0 15px rgba(255, 93, 43, 0.3)") ].

Definition animation_literal : list (string * value) :=
  [ ("pulse-slow", VString "pulse 3s cubic-bezier(0.4, 0, 0.6, 1) infinite") ].

(** The token categories under [theme.extend], as written. *)
Definition categories_literal : list (string * list (string * value)) :=
  [ ("colors", colors_literal);
    ("boxShadow", boxShadow_literal);
    ("animation", animation_literal) ].

Definition extend_literal : list (string * value) :=
  prod_map id object <$> categories_literal.

Definition theme_literal : list (string * value) :=
  [ ("extend", object extend_literal) ].

Definition plugins_literal : list value := [].

Definition config_literal : list (string * value) :=
  [ ("content", VArray content_literal);
    ("theme", object theme_literal);
    ("plugins", VArray plugins_literal) ].

(** The default-exported value. *)
Definition tailwind_config : value := object config_literal.

(** ** Module evaluation

    The module body is a list of statements; the only statement form the
    source uses is [export default e].  A module state holds the index of
    the next statement and the bindings exported so far. *)

Inductive stmt :=
| ExportDefault (e : value).

Definition module_body : list stmt := [ ExportDefault tailwind_config ].

Record module_state := ModuleState {
  pc : nat;
  exports : gmap string value
}.

Definition init : module_state := ModuleState 0 ∅.

Definition exec (s : stmt) (σ : module_state) : module_state :=
  match s with
  | ExportDefault v => ModuleState (S (pc σ)) (<["default" := v]> (exports σ))
  end.

Inductive step : relation module_state :=
| step_stmt σ s :
    module_body !! pc σ = Some s →
    step σ (exec s σ).

(** The state once the single statement of the body has run. *)
Definition defined : module_state := exec (ExportDefault tailwind_config) init.

(** What an importer of the module reads. *)
Definition read (σ : module_state) : option value := exports σ !! "default".

(** ** Value grammars used by the structural checks

    The module contains no validation code of its own: its values are
    opaque strings that the consuming tool interprets.  The executable
    predicates below fix the grammars against which the structural
    checks on those strings are stated: the six-digit hexadecimal colour
    pattern, the components of an [animation] shorthand, and the
    well-formedness of a glob pattern. *)

Module Css.

Definition is_digit (c : ascii) : bool :=
  let n := nat_of_ascii c in Nat.leb 48 n && Nat.leb n 57.

Definition is_hex_digit (c : ascii) : bool :=
  let n := nat_of_ascii c in
  is_digit c || Nat.leb 65 n && Nat.leb n 70 || Nat.leb 97 n && Nat.leb n 102.

(** The pattern [^#[0-9A-Fa-f]{6}$]. *)
Definition is_hex_color (s : string) : bool :=
  match s with
  | String "#" r =>
      Nat.eqb (String.length r) 6 && forallb is_hex_digit (String.list_ascii_of_string r)
  | _ => false
  end.

(** Splitting of a shorthand value at the spaces that are outside
    parentheses.  [cur] is the current token, reversed. *)
Fixpoint split_top (depth : nat) (cur : list ascii) (cs : list ascii)
  : list (list ascii) :=
  match cs with
  | [] => [reverse cur]
  | c :: cs' =>
      if Ascii.eqb c " " && Nat.eqb depth 0 then
        reverse cur :: split_top 0 [] cs'
      else if Ascii.eqb c "(" then split_top (S depth) (c :: cur) cs'
      else if Ascii.eqb c ")" then split_top (pred depth) (c :: cur) cs'
      else split_top depth (c :: cur) cs'
  end.

Definition tokens (s : string) : list string :=
  filter (λ t, t ≠ "")
    (String.string_of_list_ascii <$> split_top 0 [] (String.list_ascii_of_string s)).

Definition is_number (cs : list ascii) : bool :=
  negb (Nat.eqb (length cs) 0)
  && forallb (λ c, is_digit c || Ascii.eqb c ".") cs.

(** A duration: a number followed by [s] or [ms]. *)
Definition is_time (t : string) : bool :=
  match reverse (String.list_ascii_of_string t) with
  | "s"%char :: "m"%char :: ds => is_number (reverse ds)
  | "s"%char :: ds => is_number (reverse ds)
  | _ => false
  end.

Definition is_timing (t : string) : bool :=
  bool_decide (t ∈ ["linear"; "ease"; "ease-in"; "ease-out"; "ease-in-out";
                    "step-start"; "step-end"])
  || String.prefix "cubic-bezier(" t
  || String.prefix "steps(" t.

Definition is_keyword (t : string) : bool :=
  bool_decide (t ∈ ["infinite";
                    "normal"; "reverse"; "alternate"; "alternate-reverse";
                    "none"; "forwards"; "backwards"; "both";
                    "running"; "paused"]).

Definition is_count (t : string) : bool :=
  is_number (String.list_ascii_of_string t).

(** The keyframes name of an [animation] shorthand: the first component
    that is neither a duration, a timing function, a count nor one of
    the keywords. *)
Definition keyframes_name (s : string) : option string :=
  head (filter (λ t, ¬ (is_time t || is_timing t || is_keyword t || is_count t))
               (tokens s)).

End Css.

Module Glob.

(** One pass over a pattern, tracking the nesting depth of brace
    alternations and whether the scan is inside a bracket class.  A
    backslash escapes the next character. *)
Fixpoint scan (depth : nat) (in_class : bool) (cs : list ascii) : bool :=
  match cs with
  | [] => Nat.eqb depth 0 && negb in_class
  | c :: cs' =>
      if in_class then scan depth (negb (Ascii.eqb c "]")) cs'
      else if Ascii.eqb c "[" then scan depth true cs'
      else if Ascii.eqb c "{" then scan (S depth) false cs'
      else if Ascii.eqb c "}" then
        match depth with
        | 0 => false
        | S d => scan d false cs'
        end
      else if Ascii.eqb c "\" then
        match cs' with
        | [] => false
        | _ :: cs'' => scan depth false cs''
        end
      else scan depth false cs'
  end.

(** A pattern is well formed when it is not empty, every bracket class
    is closed, braces are balanced and no escape is left dangling. *)
Definition valid (s : string) : bool :=
  negb (String.eqb s "") && scan 0 false (String.list_ascii_of_string s).

End Glob.

(** A value is a glob pattern when it is a string that is a well-formed
    pattern. *)
Definition is_glob (v : value) : bool :=
  match v with
  | VString s => Glob.valid s
  | _ => false
  end.

(** A value is a hexadecimal colour when it is a string of that form. *)
Definition is_hex_color_value (v : value) : bool :=
  match v with
  | VString s => Css.is_hex_color s
  | _ => false
  end.

(** ** Auxiliary notions for the properties of literal evaluation *)



Module Rgb.

(** Value of a hexadecimal digit. *)
Definition hex_value (c : ascii) : option nat :=
  let n := nat_of_ascii c in
  if Css.is_digit c then Some (n - 48)
  else if Nat.leb 65 n && Nat.leb n 70 then Some (n - 55)
  else if Nat.leb 97 n && Nat.leb n 102 then Some (n - 87)
  else None.

(** Red, green and blue channels of a colour written [#RRGGBB]. *)
Definition channels_of_hex (s : string) : option (nat * nat * nat) :=
  match s with
  | String "#" r =>
      match mapM hex_value (String.list_ascii_of_string r) with
      | Some [r1; r0; g1; g0; b1; b0] =>
          Some (16 * r1 + r0, 16 * g1 + g0, 16 * b1 + b0)
      | _ => None
      end
  | _ => None
  end.

(** An unsigned decimal integer. *)
Definition decimal (cs : list ascii) : option nat :=
  if negb (Nat.eqb (length cs) 0) && forallb Css.is_digit cs
  then Some (foldl (λ acc c, 10 * acc + (nat_of_ascii c - 48)) 0 cs)
  else None.

Fixpoint drop_spaces (cs : list ascii) : list ascii :=
  match cs with
  | c :: cs' => if Ascii.eqb c " " then drop_spaces cs' else cs
  | [] => []
  end.

Definition trim (cs : list ascii) : list ascii :=
  reverse (drop_spaces (reverse (drop_spaces cs))).

(** Splitting at commas; [cur] is the current component, reversed. *)
Fixpoint split_commas (cur : list ascii) (cs : list ascii) : list (list ascii) :=
  match cs with
  | [] => [reverse cur]
  | c :: cs' =>
      if Ascii.eqb c "," then reverse cur :: split_commas [] cs'
      else split_commas (c :: cur) cs'
  end.

(** Red, green and blue channels of a colour written
    [rgba(R, G, B, A)] with integer channels. *)
Definition channels_of_rgba (t : string) : option (nat * nat * nat) :=
  if String.prefix "rgba(" t then
    match reverse (drop 5 (String.list_ascii_of_string t)) with
    | ")"%char :: inner =>
        match trim <$> split_commas [] (reverse inner) with
        | [r; g; b; _] =>
            r' ← decimal r; g' ← decimal g; b' ← decimal b; Some (r', g', b')
        | _ => None
        end
    | _ => None
    end
  else None.

End Rgb.

(** ** Sanity checks of the grammars on small inputs *)

Example tokens_pulse :
  Css.tokens "pulse 3s cubic-bezier(0.4, 0, 0.6, 1) infinite"
  = ["pulse"; "3s"; "cubic-bezier(0.4, 0, 0.6, 1)"; "infinite"].
Proof. reflexivity. Qed.

Example keyframes_name_late :
  Css.keyframes_name "3s ease-in 200ms 2 spin" = Some "spin".
Proof. reflexivity. Qed.

Example keyframes_name_absent : Css.keyframes_name "1s linear infinite" = None.
Proof. reflexivity. Qed.

Example hex_color_samples :
  Css.is_hex_color "#a0B1c2" = true
  ∧ Css.is_hex_color "#FF5D2" = false
  ∧ Css.is_hex_color "#FF5D2G" = false
  ∧ Css.is_hex_color "#FF5D2B0" = false
  ∧ Css.is_hex_color "FF5D2B" = false.
Proof. repeat split; reflexivity. Qed.

Example glob_samples :
  Glob.valid "src/[a-c]?/*.js" = true
  ∧ Glob.valid "" = false
  ∧ Glob.valid "./src/{a" = false
  ∧ Glob.valid "a}" = false
  ∧ Glob.valid "a[bc" = false.
Proof. repeat split; reflexivity. Qed.

(** A name written twice in a literal keeps the last value. *)
Example object_last_wins :
  get "a" (object [("a", VString "1"); ("a", VString "2")]) = Some (VString "2").
Proof. reflexivity. Qed.

(** ** Shape of the descriptor *)

(** X1: the descriptor is an object whose keys are exactly content,
    theme and plugins; no other option of the consuming tool is set. *)
Lemma tailwind_config_keys :
  ∃ m, tailwind_config = VObject m
       ∧ dom m = ({[ "content"; "theme"; "plugins" ]} : gset string).
Proof. eexists; split; [reflexivity | by vm_compute]. Qed.

(** C2: the [content] field is the sequence of the two patterns
    "./index.html" and the source-tree pattern for js, ts, jsx and tsx
    files, in that order. *)
Theorem content_exact :
  get "content" tailwind_config
  = Some (VArray [ VString "./index.html";
                   VString "./src/**/*.{js,ts,jsx,tsx}" ]).
Proof. reflexivity. Qed.

(** C5: the [plugins] field is the empty sequence. *)
Theorem plugins_empty : get "plugins" tailwind_config = Some (VArray []).
Proof. reflexivity. Qed.

(** C3: [theme.extend.colors] has exactly the keys primary, secondary and
    background, with values #FF5D2B, #FF5D2B and #171717. *)
Theorem colors_exact :
  ∃ m, get_path ["theme"; "extend"; "colors"] tailwind_config = Some (VObject m)
       ∧ dom m = ({[ "primary"; "secondary"; "background" ]} : gset string)
       ∧ m !! "primary" = Some (VString "#FF5D2B")
       ∧ m !! "secondary" = Some (VString "#FF5D2B")
       ∧ m !! "background" = Some (VString "#171717").
Proof.
  eexists. split; [reflexivity |].
  split; [by vm_compute |].
  repeat split; reflexivity.
Qed.

(** C1: [theme.extend.boxShadow] maps glow to the string
    "0 0 15px rgba(255, 93, 43, 0.3)", and glow is its only key. *)
Theorem boxShadow_glow_only :
  ∃ m, get_path ["theme"; "extend"; "boxShadow"] tailwind_config = Some (VObject m)
       ∧ m !! "glow" = Some (VString "0 0 15px rgba(255, 93, 43, 0.3)")
       ∧ dom m = ({[ "glow" ]} : gset string).
Proof.
  eexists. split; [reflexivity |].
  split; [reflexivity | by vm_compute].
Qed.

(** C4: [theme.extend.animation] maps pulse-slow to the string
    "pulse 3s cubic-bezier(0.4, 0, 0.6, 1) infinite", and pulse-slow is
    its only key. *)
Theorem animation_pulse_slow_only :
  ∃ m, get_path ["theme"; "extend"; "animation"] tailwind_config = Some (VObject m)
       ∧ m !! "pulse-slow"
         = Some (VString "pulse 3s cubic-bezier(0.4, 0, 0.6, 1) infinite")
       ∧ dom m = ({[ "pulse-slow" ]} : gset string).
Proof.
  eexists. split; [reflexivity |].
  split; [reflexivity | by vm_compute].
Qed.

(** ** Structural checks on the values *)

(** Checked form of the colours check: the whole map at once. *)
Lemma colors_all_hex :
  ∃ m, get_path ["theme"; "extend"; "colors"] tailwind_config = Some (VObject m)
       ∧ map_Forall (λ _ v, is_hex_color_value v = true) m.
Proof.
  eexists. split; [reflexivity |].
  apply map_Forall_to_list, Forall_forall.
  intros [k v] Hkv. vm_compute in Hkv.
  repeat (apply elem_of_cons in Hkv as [-> | Hkv]; [reflexivity |]).
  by apply elem_of_nil in Hkv.
Qed.

(** C6: every key of [theme.extend.colors] maps to a string that matches
    the six-digit hexadecimal colour pattern. *)
Theorem colors_values_hex (m : gmap string value) (k : string) (v : value) :
  get_path ["theme"; "extend"; "colors"] tailwind_config = Some (VObject m) →
  m !! k = Some v →
  ∃ s, v = VString s ∧ Css.is_hex_color s = true.
Proof.
  intros Hm Hk.
  destruct colors_all_hex as (m' & Hm' & Hall).
  rewrite Hm in Hm'. injection Hm' as <-.
  specialize (Hall k v Hk). simpl in Hall.
  destruct v as [s | |]; [eauto | done | done].
Qed.

Lemma colors_values_hex_witness :
  ∃ m, get_path ["theme"; "extend"; "colors"] tailwind_config = Some (VObject m)
       ∧ m !! "primary" = Some (VString "#FF5D2B")
       ∧ ∃ s, VString "#FF5D2B" = VString s ∧ Css.is_hex_color s = true.
Proof.
  eexists. split; [reflexivity |]. split; [reflexivity |].
  eapply (colors_values_hex _ "primary"); reflexivity.
Defined.

(** C7: the [content] field is a non-empty sequence, and each of its
    elements is a string that is a well-formed glob pattern. *)
Theorem content_nonempty_globs :
  ∃ xs, get "content" tailwind_config = Some (VArray xs)
        ∧ xs ≠ []
        ∧ Forall (λ v, ∃ s, v = VString s ∧ Glob.valid s = true) xs.
Proof.
  eexists. split; [reflexivity |]. split; [discriminate |].
  repeat constructor; eexists; split; reflexivity.
Qed.

(** C8: in each token category of [theme.extend] (colors, boxShadow,
    animation) the token names are pairwise distinct: no name is written
    twice in the literal, and the category is a map whose keys are
    exactly the written names, one key per written token. *)
Theorem token_names_unique :
  Forall (λ cat : string * list (string * value),
            NoDup (cat.2).*1
            ∧ ∃ m, get_path ["theme"; "extend"; cat.1] tailwind_config
                   = Some (VObject m)
                   ∧ dom m = list_to_set (cat.2).*1
                   ∧ size m = length cat.2)
         categories_literal.
Proof.
  unfold categories_literal.
  repeat apply Forall_cons_2; [| | | apply Forall_nil_2]; simpl.
  all: split; [compute_done |].
  all: eexists; split; [reflexivity |]; split; by vm_compute.
Qed.

(** ** Evaluation of the module and reads of its export *)

Lemma step_init σ : step init σ → σ = defined.
Proof.
  inversion 1 as [σ0 s Hs]; subst.
  simpl in Hs. by injection Hs as <-.
Qed.

Lemma step_defined σ : ¬ step defined σ.
Proof. inversion 1 as [σ0 s Hs]; subst. discriminate Hs. Qed.

Lemma init_defined : rtc step init defined.
Proof. apply rtc_once. by constructor. Qed.

Lemma reachable_inv σ : rtc step init σ → σ = init ∨ σ = defined.
Proof.
  revert σ. apply rtc_ind_r; [by left |].
  intros σ σ' _ Hs [-> | ->].
  - right. by apply step_init.
  - by apply step_defined in Hs.
Qed.

Lemma defined_final σ : rtc step defined σ → σ = defined.
Proof.
  inversion 1 as [| ? σ1 ? Hs]; [done |].
  by apply step_defined in Hs.
Qed.

Lemma read_init : read init = None.
Proof. reflexivity. Qed.

Lemma read_defined : read defined = Some tailwind_config.
Proof. reflexivity. Qed.

(** C9: reading the descriptor is deterministic and free of mutation.
    Once the export is defined, every later state of the module is the
    same state, and a read in it yields the same value as the earlier
    read, namely the literal of the source. *)
Theorem read_stable (σ σ' : module_state) (d : value) :
  rtc step init σ →
  read σ = Some d →
  rtc step σ σ' →
  σ' = σ ∧ read σ' = read σ ∧ d = tailwind_config.
Proof.
  intros Hr Hd Hs.
  destruct (reachable_inv σ Hr) as [-> | ->].
  - rewrite read_init in Hd. discriminate.
  - rewrite read_defined in Hd. injection Hd as <-.
    by rewrite (defined_final σ' Hs).
Qed.

Lemma read_stable_witness :
  rtc step init defined
  ∧ read defined = Some tailwind_config
  ∧ defined = defined ∧ read defined = read defined
  ∧ tailwind_config = tailwind_config.
Proof.
  split; [exact init_defined |]. split; [reflexivity |].
  apply (read_stable defined defined tailwind_config).
  - exact init_defined.
  - reflexivity.
  - apply rtc_refl.
Defined.

(** ** Categories of the theme *)

(** C10: [theme] has the single key extend, and the keys of
    [theme.extend] are exactly colors, boxShadow and animation.  No
    keyframes category exists: the value of the pulse-slow animation
    names the keyframes pulse, and neither a keyframes key nor a pulse
    key occurs in any object of the descriptor. *)
Theorem theme_extend_domain_no_keyframes :
  ∃ (theme extend animation : gmap string value) (shorthand : string),
    get "theme" tailwind_config = Some (VObject theme)
    ∧ dom theme = ({[ "extend" ]} : gset string)
    ∧ theme !! "extend" = Some (VObject extend)
    ∧ dom extend = ({[ "colors"; "boxShadow"; "animation" ]} : gset string)
    ∧ theme !! "keyframes" = None
    ∧ extend !! "keyframes" = None
    ∧ extend !! "animation" = Some (VObject animation)
    ∧ animation !! "pulse-slow" = Some (VString shorthand)
    ∧ Css.keyframes_name shorthand = Some "pulse"
    ∧ ("keyframes" ∉ all_keys tailwind_config)
    ∧ ("pulse" ∉ all_keys tailwind_config).
Proof.
  do 4 eexists.
  split; [reflexivity |].
  split; [by vm_compute |].
  split; [reflexivity |].
  split; [by vm_compute |].
  do 5 (split; [reflexivity |]).
  split; compute_done.
Qed.

(** ** Evaluation of object literals

    General facts about the evaluation of a literal, for any list of
    written properties. *)










(** With a name written twice the order does matter. *)
Example object_order_matters :
  object [("a", VString "1"); ("a", VString "2")]
  ≠ object [("a", VString "2"); ("a", VString "1")].
Proof. intros H. by vm_compute in H. Qed.

(** ** Resolution of design tokens *)








(** ** Exports of the module *)

(** X7: in every state that evaluation of the module can reach, the only
    exported binding is [default], and it is bound to the descriptor:
    the module has no named exports. *)
Theorem exports_only_default (σ : module_state) (name : string) (v : value) :
  rtc step init σ →
  exports σ !! name = Some v →
  name = "default" ∧ v = tailwind_config.
Proof.
  intros Hr Hv. destruct (reachable_inv σ Hr) as [-> | ->].
  - unfold init in Hv. cbn [exports] in Hv. by rewrite lookup_empty in Hv.
  - unfold defined, exec, init in Hv. cbn [exports] in Hv.
    apply lookup_insert_Some in Hv as [[<- <-] | [_ Hv]]; [done |].
    by rewrite lookup_empty in Hv.
Qed.

Lemma exports_only_default_witness :
  rtc step init defined
  ∧ exports defined !! "default" = Some tailwind_config
  ∧ "default" = "default" ∧ tailwind_config = tailwind_config.
Proof.
  split; [exact init_defined |]. split; [reflexivity |].
  apply (exports_only_default defined "default" tailwind_config).
  - exact init_defined.
  - reflexivity.
Defined.

(** ** Colour channels *)

Lemma hex_value_is_hex_digit (c : ascii) :
  is_Some (Rgb.hex_value c) ↔ Css.is_hex_digit c = true.
Proof.
  unfold Rgb.hex_value, Css.is_hex_digit. cbv zeta.
  set (n := nat_of_ascii c).
  destruct (Css.is_digit c); cbv beta iota delta [orb];
    [split; [done | by eexists] |].
  destruct (Nat.leb 65 n && Nat.leb n 70); cbv beta iota delta [orb];
    [split; [done | by eexists] |].
  destruct (Nat.leb 97 n && Nat.leb n 102); cbv beta iota delta [orb];
    [split; [done | by eexists] |].
  split; [by intros [? ?] | done].
Qed.

Lemma hex_value_bound (c : ascii) (n : nat) :
  Rgb.hex_value c = Some n → n < 16.
Proof.
  unfold Rgb.hex_value, Css.is_digit.
  repeat match goal with
         | |- context [Nat.leb ?a ?b] => destruct (Nat.leb_spec a b)
         end; simpl; intros [= <-]; lia.
Qed.

Lemma string_length_list (s : string) :
  String.length s = length (String.list_ascii_of_string s).
Proof. induction s as [| a s IH]; simpl; congruence. Qed.

(** The channels of a colour are defined exactly for the strings that
    match the six-digit hexadecimal pattern. *)
Lemma channels_of_hex_defined (s : string) :
  is_Some (Rgb.channels_of_hex s) ↔ Css.is_hex_color s = true.
Proof.
  destruct s as [| a r]; [by split; [intros [? ?] |] |].
  destruct (decide (a = "#"%char)) as [-> | Hne].
  - cbn [Rgb.channels_of_hex Css.is_hex_color].
    rewrite string_length_list.
    set (l := String.list_ascii_of_string r).
    rewrite andb_true_iff, Nat.eqb_eq, forallb_forall, <- List.Forall_forall.
    split.
    + destruct (mapM Rgb.hex_value l) as [k |] eqn:Hk; [| by intros [? ?]].
      intros Hsome. split.
      * rewrite (length_mapM _ _ _ Hk).
        by do 7 (destruct k as [| ? k]; try by destruct Hsome).
      * assert (Hall : Forall (is_Some ∘ Rgb.hex_value) l)
          by (apply mapM_is_Some; eauto).
        eapply Forall_impl; [exact Hall |].
        intros c Hc. by apply hex_value_is_hex_digit.
    + intros [Hlen Hall].
      assert (Hsome : is_Some (mapM Rgb.hex_value l)).
      { apply mapM_is_Some. eapply Forall_impl; [exact Hall |].
        intros c Hc. by apply hex_value_is_hex_digit. }
      destruct Hsome as [k Hk]. rewrite Hk.
      apply length_mapM in Hk. rewrite Hlen in Hk.
      by do 7 (destruct k as [| ? k]; try done).
  - destruct a as [[] [] [] [] [] [] [] []]; try done;
      by split; [intros [? ?] |].
Qed.

(** X8: the colour of the glow shadow is the primary colour: the red, green
    and blue channels written in decimal in the last component of
    [boxShadow.glow] are those written in hexadecimal in
    [colors.primary] and [colors.secondary], namely 255, 93 and 43. *)
Theorem glow_colour_is_primary :
  ∃ primary secondary glow colour : string,
    get_path ["theme"; "extend"; "colors"; "primary"] tailwind_config
    = Some (VString primary)
    ∧ get_path ["theme"; "extend"; "colors"; "secondary"] tailwind_config
      = Some (VString secondary)
    ∧ get_path ["theme"; "extend"; "boxShadow"; "glow"] tailwind_config
      = Some (VString glow)
    ∧ last (Css.tokens glow) = Some colour
    ∧ Rgb.channels_of_hex primary = Some (255, 93, 43)
    ∧ Rgb.channels_of_hex secondary = Rgb.channels_of_hex primary
    ∧ Rgb.channels_of_rgba colour = Rgb.channels_of_hex primary.
Proof.
  do 4 eexists.
  do 3 (split; [reflexivity |]).
  split; [reflexivity |].
  split; [by vm_compute |].
  split; [reflexivity | by vm_compute].
Qed.
